(** * Saleor shipping GraphQL layer: resolvers and country coverage

    A shallow embedding of
      - [saleor/graphql/shop/utils.py]      ([get_countries_codes_list]) and
      - [saleor/graphql/shipping/types.py]  (the [ShippingMethod] and
        [ShippingZone] field resolvers),
    followed by the properties of the specification that concern them.

    Python sets of country codes are [gset string]; a resolver's return value
    is a [Promise]: either a plain value, a raised exception, or a dataloader
    fetch with its [.then] continuation. *)

From stdpp Require Import gmap strings list.

#[local] Set Warnings "-clear-no-such-hyp".

Local Open Scope string_scope.

(** ** Country coverage ([saleor/graphql/shop/utils.py]) *)

(** A [django_countries] country as the code reads it: [country.code] and
    [country.name]. *)
Module Country.
Record t : Type := Build { code : string; name : string }.
End Country.

(** The slice of [models.ShippingZone] the code reads. *)
Module ShippingZone.
Record t : Type := Build { id : Z; countries : list Country.t }.
End ShippingZone.

(** [{country[0] for country in countries}]: the reference table enumerates
    (code, name) pairs. *)
Definition all_countries_codes (countries : list (string * string)) : gset string :=
  list_to_set (fst <$> countries).

(** [{country.code for country in zone.countries}] *)
Definition zone_codes (zone : ShippingZone.t) : gset string :=
  list_to_set (Country.code <$> ShippingZone.countries zone).

(** The loop
      [covered_countries_codes = set()]
      [for zone in ShippingZone.objects.iterator():]
      [    covered_countries_codes.update({... for country in zone.countries})]
    started from an arbitrary accumulator. *)
Fixpoint update_covered (acc : gset string) (zones : list ShippingZone.t) : gset string :=
  match zones with
  | [] => acc
  | zone :: rest => update_covered (acc ∪ zone_codes zone) rest
  end.

Definition covered_countries_codes (zones : list ShippingZone.t) : gset string :=
  update_covered ∅ zones.

(** [get_countries_codes_list(in_shipping_zones)], with the two things it reads
    from outside made explicit: the [django_countries] table and the rows of
    [ShippingZone.objects]. *)
Definition get_countries_codes_list
    (countries : list (string * string)) (zones : list ShippingZone.t)
    (in_shipping_zones : option bool) : gset string :=
  let all := all_countries_codes countries in
  match in_shipping_zones with
  | Some flag =>
      let covered := covered_countries_codes zones in
      if flag then covered
      else if negb flag then all ∖ covered
      else all
  | None => all
  end.

(** ** Resolver results ([saleor/graphql/shipping/types.py]) *)

(** Exceptions a resolver, or the continuation of its promise, can end in. *)
Inductive Exception : Type :=
| AttributeError
| PermissionDenied.

(** [node.id]: the integer primary key of a [models.ShippingMethod] row, or
    the string identifier of a [ShippingMethodData]. *)
Inductive PyId : Type :=
| IntId (pk : Z)
| StrId (s : string).

(** [prices.Money]: a decimal amount (coefficient and exponent) and a currency. *)
Module Money.
Record t : Type := Build { coefficient : Z; exponent : Z; currency : string }.
End Money.

(** [models.ShippingMethodChannelListing]; a money field is [None] when its
    amount column is null. *)
Module ShippingMethodChannelListing.
Record t : Type := Build {
    id : Z;
    channel_id : Z;
    price : option Money.t;
    maximum_order_price : option Money.t;
    minimum_order_price : option Money.t
  }.
End ShippingMethodChannelListing.

(** [models.ShippingMethodPostalCodeRule] *)
Module ShippingMethodPostalCodeRule.
Record t : Type := Build { start : string; end_ : string; inclusion_type : string }.
End ShippingMethodPostalCodeRule.

Module Product.
Record t : Type := Build { id : Z }.
End Product.

(** [measurement.measures.Weight]: a magnitude in a unit. The magnitude is a
    Python float, kept as the pair (m, e) of the finite value m * 2^e. *)
Module Weight.
Record t : Type := Build { mantissa : Z; exponent : Z; unit : string }.
End Weight.

(** The dataloaders the resolvers below call. [L key : Loader R] stands for
    [L(info.context).load(key)], a promise of an [R]. The loader keyed by
    (shipping method id, channel slug) resolves to [None] when no listing
    exists for the key. *)
Inductive Loader : Type → Type :=
| ShippingMethodChannelListingByShippingMethodIdAndChannelSlugLoader
    (key : PyId * string) : Loader (option ShippingMethodChannelListing.t)
| PostalCodeRulesByShippingMethodIdLoader
    (key : PyId) : Loader (list ShippingMethodPostalCodeRule.t)
| ShippingMethodChannelListingByShippingMethodIdLoader
    (key : PyId) : Loader (list ShippingMethodChannelListing.t).

(** What a resolver hands back to the GraphQL engine: a value ([Return]), an
    exception ([Raise]), or [loader.load(key).then(k)] ([Load]). *)
Inductive Promise (A : Type) : Type :=
| Return (value : A)
| Raise (error : Exception)
| Load {R : Type} (call : Loader R) (then_ : R → Promise A).
Arguments Return {A} value.
Arguments Raise {A} error.
Arguments Load {A R} call then_.

(** A resolved GraphQL field: a Python value or [None]. *)
Abbreviation Resolved A := (Promise (option A)).

(** One fetch issued to a loader. *)
Inductive Fetch : Type :=
| fetch {R : Type} (call : Loader R).

(** The data store behind the loaders: what each [load] resolves to. *)
Definition DataStore : Type := ∀ R, Loader R → R.

Inductive Outcome (A : Type) : Type :=
| Value (value : A)
| Error (error : Exception).
Arguments Value {A} value.
Arguments Error {A} error.

(** Settling a promise against a data store: the fetches issued, in order, and
    the value or exception the promise ends in. *)
Fixpoint run {A : Type} (store : DataStore) (p : Promise A) : list Fetch * Outcome A :=
  match p with
  | Return v => ([], Value v)
  | Raise e => ([], Error e)
  | Load call then_ =>
      let '(fetches, outcome) := run store (then_ (store _ call)) in
      (fetch call :: fetches, outcome)
  end.

Definition fetches {A : Type} (store : DataStore) (p : Promise A) : list Fetch :=
  fst (run store p).

Definition outcome {A : Type} (store : DataStore) (p : Promise A) : Outcome A :=
  snd (run store p).

(** ** Request context and permissions *)

Module ShippingPermissions.
Inductive t : Type := MANAGE_SHIPPING.
End ShippingPermissions.

(** [info.context], reduced to the capability check made on it. *)
Module Context.
Record t : Type := Build { has_capability : ShippingPermissions.t → bool }.
End Context.

Module Info.
Record t : Type := Build { context : Context.t }.
End Info.

(** Modelled from the spec: the [permission_required] decorator of
    [saleor/graphql/decorators.py] is not part of the sources at hand. The
    specification describes it as a guard, evaluated before the loader call,
    that consults [has_capability(context, capability)] and gives an explicit
    access-denied outcome when the caller lacks the capability. *)
Definition permission_required {Root Args A : Type}
    (capability : ShippingPermissions.t)
    (resolver : Root → Info.t → Args → Promise A) : Root → Info.t → Args → Promise A :=
  λ root info kwargs,
    if Context.has_capability (Info.context info) capability
    then resolver root info kwargs
    else Raise PermissionDenied.

(** ** Context-wrapped entities *)

(** [ChannelContext(node, channel_slug)] *)
Module ChannelContext.
Record t (Node : Type) : Type := Build { node : Node; channel_slug : option string }.
Arguments Build {Node} node channel_slug.
Arguments node {Node} _.
Arguments channel_slug {Node} _.
End ChannelContext.

(** The attributes of [Union[ShippingMethodData, models.ShippingMethod]] the
    resolvers below read. A [None] in [price], [maximum_order_price],
    [minimum_order_price] or [is_external] stands for an attribute that is
    missing or holds [None]: the code reads these four with [getattr] and a
    default. The two weights are [None] when the row stores none.
    [excluded_products] is [None] or a related manager, given by the
    products it ranges over; a manager object is truthy whatever it holds. *)
Module ShippingMethodNode.
Record t : Type := Build {
  id : PyId;
  price : option Money.t;
  maximum_order_price : option Money.t;
  minimum_order_price : option Money.t;
  is_external : option bool;
  maximum_order_weight : option Weight.t;
  minimum_order_weight : option Weight.t;
  excluded_products : option (list Product.t)
}.
End ShippingMethodNode.

(** [getattr(node, "is_external", False)], as the [if] reads it. *)
Definition getattr_is_external (node : ShippingMethodNode.t) : bool :=
  match ShippingMethodNode.is_external node with
  | Some flag => flag
  | None => false
  end.

(** [core.types.CountryDisplay(code=..., country=...)] *)
Module CountryDisplay.
Record t : Type := Build { code : string; country : string }.
End CountryDisplay.

(** ** [ShippingMethod] resolvers *)

Abbreviation ShippingMethodRoot := (ChannelContext.t ShippingMethodNode.t).

(** Keyword arguments of a connection field (pagination). *)
Module Kwargs.
Record t : Type := Build {
  first : option Z;
  last : option Z;
  before : option string;
  after : option string
}.
End Kwargs.

(** [ShippingMethod.resolve_id]; [to_global_id] is
    [graphene.Node.to_global_id]. *)
Definition resolve_id (to_global_id : string → PyId → string)
    (root : ShippingMethodRoot) (_info : Info.t) : Resolved PyId :=
  let node := ChannelContext.node root in
  if getattr_is_external node then
    Return (Some (ShippingMethodNode.id node))
  else
    Return (Some (StrId (to_global_id "ShippingMethod" (ShippingMethodNode.id node)))).

(** [ShippingMethod.resolve_price] *)
Definition resolve_price (root : ShippingMethodRoot) (info : Info.t) : Resolved Money.t :=
  let node := ChannelContext.node root in
  match ShippingMethodNode.price node with
  | Some price => Return (Some price)
  | None =>
      match ChannelContext.channel_slug root with
      | None | Some "" => Return None
      | Some channel_slug =>
          if getattr_is_external node then Return None
          else
            Load (ShippingMethodChannelListingByShippingMethodIdAndChannelSlugLoader
                    (ShippingMethodNode.id node, channel_slug))
                 (λ channel_listing,
                    match channel_listing with
                    | Some listing => Return (ShippingMethodChannelListing.price listing)
                    | None => Return None
                    end)
      end
  end.

(** [ShippingMethod.resolve_maximum_order_price]. Its continuation reads
    [channel_listing.maximum_order_price] whatever [channel_listing] is; on
    [None] the attribute access raises [AttributeError]. *)
Definition resolve_maximum_order_price
    (root : ShippingMethodRoot) (info : Info.t) : Resolved Money.t :=
  let node := ChannelContext.node root in
  match ShippingMethodNode.maximum_order_price node with
  | Some maximum_order_price => Return (Some maximum_order_price)
  | None =>
      match ChannelContext.channel_slug root with
      | None | Some "" => Return None
      | Some channel_slug =>
          if getattr_is_external node then Return None
          else
            Load (ShippingMethodChannelListingByShippingMethodIdAndChannelSlugLoader
                    (ShippingMethodNode.id node, channel_slug))
                 (λ channel_listing,
                    match channel_listing with
                    | Some listing =>
                        Return (ShippingMethodChannelListing.maximum_order_price listing)
                    | None => Raise AttributeError
                    end)
      end
  end.

(** [ShippingMethod.resolve_minimum_order_price]; same shape as the maximum. *)
Definition resolve_minimum_order_price
    (root : ShippingMethodRoot) (info : Info.t) : Resolved Money.t :=
  let node := ChannelContext.node root in
  match ShippingMethodNode.minimum_order_price node with
  | Some minimum_order_price => Return (Some minimum_order_price)
  | None =>
      match ChannelContext.channel_slug root with
      | None | Some "" => Return None
      | Some channel_slug =>
          if getattr_is_external node then Return None
          else
            Load (ShippingMethodChannelListingByShippingMethodIdAndChannelSlugLoader
                    (ShippingMethodNode.id node, channel_slug))
                 (λ channel_listing,
                    match channel_listing with
                    | Some listing =>
                        Return (ShippingMethodChannelListing.minimum_order_price listing)
                    | None => Raise AttributeError
                    end)
      end
  end.

(** [ShippingMethod.resolve_maximum_order_weight] and
    [ShippingMethod.resolve_minimum_order_weight].
    [convert_weight_to_default_weight_unit] comes from [saleor/core/weight.py];
    it is a parameter here, applied to the stored weight, which may be
    [None]. *)
Definition resolve_maximum_order_weight
    (convert_weight_to_default_weight_unit : option Weight.t → option Weight.t)
    (root : ShippingMethodRoot) : Resolved Weight.t :=
  Return (convert_weight_to_default_weight_unit
            (ShippingMethodNode.maximum_order_weight (ChannelContext.node root))).

Definition resolve_minimum_order_weight
    (convert_weight_to_default_weight_unit : option Weight.t → option Weight.t)
    (root : ShippingMethodRoot) : Resolved Weight.t :=
  Return (convert_weight_to_default_weight_unit
            (ShippingMethodNode.minimum_order_weight (ChannelContext.node root))).

(** [ShippingMethod.resolve_postal_code_rules] *)
Definition resolve_postal_code_rules (root : ShippingMethodRoot) (info : Info.t)
    : Resolved (list ShippingMethodPostalCodeRule.t) :=
  let node := ChannelContext.node root in
  if getattr_is_external node then Return None
  else
    Load (PostalCodeRulesByShippingMethodIdLoader (ShippingMethodNode.id node))
         (λ rules, Return (Some rules)).

(** [ShippingMethod.resolve_channel_listings], under
    [@permission_required(ShippingPermissions.MANAGE_SHIPPING)]. *)
Definition resolve_channel_listings
    : ShippingMethodRoot → Info.t → unit → Resolved (list ShippingMethodChannelListing.t) :=
  permission_required ShippingPermissions.MANAGE_SHIPPING
    (λ root info _kwargs,
       let node := ChannelContext.node root in
       if getattr_is_external node then Return None
       else
         Load (ShippingMethodChannelListingByShippingMethodIdLoader
                 (ShippingMethodNode.id node))
              (λ listings, Return (Some listings))).

(** What [create_connection_slice] is given as its first argument: a
    [QuerySet] of products, or one wrapped in a [ChannelQsContext]. *)
Inductive ProductQs : Type :=
| QuerySet (rows : list Product.t)
| ChannelQsContext (qs : list Product.t) (channel_slug : option string).

(** The products a [ProductQs] ranges over. *)
Definition qs_rows (qs : ProductQs) : list Product.t :=
  match qs with
  | QuerySet rows => rows
  | ChannelQsContext rows _ => rows
  end.

Inductive ConnectionType : Type := ProductCountableConnection.

(** [ShippingMethod.resolve_excluded_products], under
    [@permission_required(ShippingPermissions.MANAGE_SHIPPING)].
    [create_connection_slice] comes from [saleor/graphql/core/connection.py]
    and builds the connection object; it is a parameter here.
    [Product.objects.none()] is the empty [QuerySet]; [manager.all()] is a
    [QuerySet] of the manager's products. *)
Definition resolve_excluded_products {Connection : Type}
    (create_connection_slice : ProductQs → Info.t → Kwargs.t → ConnectionType → Connection)
    : ShippingMethodRoot → Info.t → Kwargs.t → Resolved Connection :=
  permission_required ShippingPermissions.MANAGE_SHIPPING
    (λ root info kwargs,
       let node := ChannelContext.node root in
       let qs :=
         match ShippingMethodNode.excluded_products node with
         | None => QuerySet []
         | Some products => ChannelQsContext products None
         end in
       Return (Some (create_connection_slice qs info kwargs ProductCountableConnection))).

(** ** [ShippingZone] resolvers *)

Abbreviation ShippingZoneRoot := (ChannelContext.t ShippingZone.t).

(** [ShippingZone.resolve_countries]: the list comprehension over
    [root.node.countries]. *)
Definition resolve_countries (root : ShippingZoneRoot) : Resolved (list CountryDisplay.t) :=
  Return (Some ((λ country, CountryDisplay.Build (Country.code country) (Country.name country))
                  <$> ShippingZone.countries (ChannelContext.node root))).

(** ** The order of checks of a channel-scoped price field *)

(** The four steps the specification gives for [price],
    [maximum_order_price] and [minimum_order_price], as a decision on the
    wrapped entity: which step settles the field. Written from the
    specification's words, to be compared with the three resolvers. *)
Inductive Dispatch : Type :=
| Precomputed (value : Money.t)
| NoChannel
| ExternallySourced
| FetchListing (key : PyId * string).

Definition dispatch_spec (field : ShippingMethodNode.t → option Money.t)
    (root : ShippingMethodRoot) : Dispatch :=
  match field (ChannelContext.node root) with
  | Some value => Precomputed value
  | None =>
      match ChannelContext.channel_slug root with
      | None | Some "" => NoChannel
      | Some channel_slug =>
          if getattr_is_external (ChannelContext.node root) then ExternallySourced
          else FetchListing (ShippingMethodNode.id (ChannelContext.node root), channel_slug)
      end
  end.

(** What each step asks of the resolver's promise, observed through [run]:
    steps 1 to 3 return at once with no fetch, step 4 issues exactly the fetch
    of the (entity id, channel slug) key. *)
Definition follows (store : DataStore) (step : Dispatch) (p : Resolved Money.t) : Prop :=
  match step with
  | Precomputed value => run store p = ([], Value (Some value))
  | NoChannel | ExternallySourced => run store p = ([], Value None)
  | FetchListing key =>
      fetches store p
      = [fetch (ShippingMethodChannelListingByShippingMethodIdAndChannelSlugLoader key)]
  end.

Abbreviation listing_loader := ShippingMethodChannelListingByShippingMethodIdAndChannelSlugLoader.

(** The entity carries no value for the field, a channel slug is present and
    the entity is not externally sourced: the case in which the loader is
    asked. *)
Definition must_fetch (field : ShippingMethodNode.t → option Money.t)
    (root : ShippingMethodRoot) (channel_slug : string) : Prop :=
  field (ChannelContext.node root) = None
  ∧ ChannelContext.channel_slug root = Some channel_slug
  ∧ channel_slug ≠ ""
  ∧ getattr_is_external (ChannelContext.node root) = false.

(** ** Sample request data *)

(** A data store with no rows: no listing for any key, no rules, no listings. *)
Definition empty_store : DataStore :=
  λ R call,
    match call in Loader R return R with
    | ShippingMethodChannelListingByShippingMethodIdAndChannelSlugLoader _ => None
    | PostalCodeRulesByShippingMethodIdLoader _ => []
    | ShippingMethodChannelListingByShippingMethodIdLoader _ => []
    end.

Definition usd (cents : Z) : Money.t := Money.Build cents (-2) "USD".

(** A store where shipping method 5 is listed in channel "default". *)
Definition default_listing : ShippingMethodChannelListing.t :=
  ShippingMethodChannelListing.Build 11 1 (Some (usd 1000)) (Some (usd 50000)) (Some (usd 0)).

Definition sample_store : DataStore :=
  λ R call,
    match call in Loader R return R with
    | ShippingMethodChannelListingByShippingMethodIdAndChannelSlugLoader key =>
        match key with
        | (IntId 5, "default") => Some default_listing
        | _ => None
        end
    | PostalCodeRulesByShippingMethodIdLoader _ => []
    | ShippingMethodChannelListingByShippingMethodIdLoader key =>
        match key with
        | IntId 5 => [default_listing]
        | _ => []
        end
    end.

(** A locally stored shipping method with nothing pre-computed on it. *)
Definition local_method : ShippingMethodNode.t :=
  ShippingMethodNode.Build (IntId 5) None None None None None None (Some []).

(** The same row after a bulk pricing step set [price] on it. *)
Definition priced_method : ShippingMethodNode.t :=
  ShippingMethodNode.Build (IntId 5) (Some (usd 1000)) None None None None None (Some []).

(** A shipping method supplied by an app. *)
Definition external_method : ShippingMethodNode.t :=
  ShippingMethodNode.Build (StrId "app:7:express") None None None (Some true) None None None.

Definition staff_info : Info.t := Info.Build (Context.Build (λ _, true)).
Definition anonymous_info : Info.t := Info.Build (Context.Build (λ _, false)).

(** ** Shipping methods of a zone *)

(** The two loaders [ShippingZone.resolve_shipping_methods] chooses between;
    both resolve to the zone's shipping methods, the first one to those listed
    in the channel of the key. *)
Inductive ZoneLoader : Type → Type :=
| ShippingMethodsByShippingZoneIdAndChannelSlugLoader
    (key : Z * string) : ZoneLoader (list ShippingMethodNode.t)
| ShippingMethodsByShippingZoneIdLoader
    (key : Z) : ZoneLoader (list ShippingMethodNode.t).

(** A promise over the zone loaders, shaped as [Promise]. *)
Inductive ZonePromise (A : Type) : Type :=
| ZoneReturn (value : A)
| ZoneRaise (error : Exception)
| ZoneLoad {R : Type} (call : ZoneLoader R) (then_ : R → ZonePromise A).
Arguments ZoneReturn {A} value.
Arguments ZoneRaise {A} error.
Arguments ZoneLoad {A R} call then_.

Inductive ZoneFetch : Type :=
| zone_fetch {R : Type} (call : ZoneLoader R).

Definition ZoneStore : Type := ∀ R, ZoneLoader R → R.

Fixpoint run_zone {A : Type} (store : ZoneStore) (p : ZonePromise A)
    : list ZoneFetch * Outcome A :=
  match p with
  | ZoneReturn v => ([], Value v)
  | ZoneRaise e => ([], Error e)
  | ZoneLoad call then_ =>
      let '(fetches, outcome) := run_zone store (then_ (store _ call)) in
      (zone_fetch call :: fetches, outcome)
  end.

(** The inner function [wrap_shipping_method_with_channel_context] of
    [resolve_shipping_methods]; it closes over [root]. *)
Definition wrap_shipping_method_with_channel_context (root : ShippingZoneRoot)
    (shipping_methods : list ShippingMethodNode.t) : list ShippingMethodRoot :=
  (λ shipping, ChannelContext.Build shipping (ChannelContext.channel_slug root))
    <$> shipping_methods.

(** [ShippingZone.resolve_shipping_methods] *)
Definition resolve_shipping_methods (root : ShippingZoneRoot) (info : Info.t)
    : ZonePromise (option (list ShippingMethodRoot)) :=
  match ChannelContext.channel_slug root with
  | None | Some "" =>
      ZoneLoad (ShippingMethodsByShippingZoneIdLoader
                  (ShippingZone.id (ChannelContext.node root)))
               (λ shipping_methods,
                  ZoneReturn (Some (wrap_shipping_method_with_channel_context
                                      root shipping_methods)))
  | Some channel_slug =>
      ZoneLoad (ShippingMethodsByShippingZoneIdAndChannelSlugLoader
                  (ShippingZone.id (ChannelContext.node root), channel_slug))
               (λ shipping_methods,
                  ZoneReturn (Some (wrap_shipping_method_with_channel_context
                                      root shipping_methods)))
  end.

(** The wrapped methods the promise of [resolve_shipping_methods] settles
    to; empty when it settles to [None] or fails. *)
Definition shipping_methods_of (store : ZoneStore) (root : ShippingZoneRoot)
    (info : Info.t) : list ShippingMethodRoot :=
  match snd (run_zone store (resolve_shipping_methods root info)) with
  | Value (Some shipping_methods) => shipping_methods
  | _ => []
  end.

(** [bool(root.channel_slug)] *)
Definition slug_truthy (channel_slug : option string) : bool :=
  match channel_slug with
  | None | Some "" => false
  | Some _ => true
  end.

(** The country displays [resolve_countries] returns for a zone. *)
Definition displayed_countries (zone : ShippingZone.t) : list CountryDisplay.t :=
  match resolve_countries (ChannelContext.Build zone None) with
  | Return (Some displays) => displays
  | _ => []
  end.

(** A zone store for the examples: zone 1 holds the local and the external
    method, and only the local one is listed in channel "default". *)
Definition sample_zone_store : ZoneStore :=
  λ R call,
    match call in ZoneLoader R return R with
    | ShippingMethodsByShippingZoneIdAndChannelSlugLoader key =>
        match key with
        | (1%Z, "default") => [local_method]
        | _ => []
        end
    | ShippingMethodsByShippingZoneIdLoader key =>
        match key with
        | 1%Z => [local_method; external_method]
        | _ => []
        end
    end.

Definition sample_zone : ShippingZone.t :=
  ShippingZone.Build 1 [Country.Build "PL" "Poland"; Country.Build "DE" "Germany"].

(** ** Loads that can fail *)

(** A load either resolves to a value or is rejected with the error of the
    batch fetch behind it. *)
Inductive LoadResult (R : Type) : Type :=
| Loaded (value : R)
| LoadError (reason : string).
Arguments Loaded {R} value.
Arguments LoadError {R} reason.

(** A data store whose batch fetches can fail. *)
Definition FallibleStore : Type := ∀ R, Loader R → LoadResult R.

(** How a promise ends: fulfilled with a value, rejected by an exception the
    resolver or its continuation raised, or rejected by the error of a load. *)
Inductive Settled (A : Type) : Type :=
| Fulfilled (value : A)
| Raised (error : Exception)
| StoreFailed (reason : string).
Arguments Fulfilled {A} value.
Arguments Raised {A} error.
Arguments StoreFailed {A} reason.

(** Settling a promise against a fallible store. A rejected load rejects the
    promise chained on it: the callback given to [.then] is not called. *)
Fixpoint settle {A : Type} (store : FallibleStore) (p : Promise A)
    : list Fetch * Settled A :=
  match p with
  | Return v => ([], Fulfilled v)
  | Raise e => ([], Raised e)
  | Load call then_ =>
      match store _ call with
      | Loaded value =>
          let '(fetches, settled) := settle store (then_ value) in
          (fetch call :: fetches, settled)
      | LoadError reason => ([fetch call], StoreFailed reason)
      end
  end.

(** A store all of whose loads resolve, as a fallible store. *)
Definition reliable (store : DataStore) : FallibleStore :=
  λ R call, Loaded (store R call).

Definition settled_of_outcome {A : Type} (o : Outcome A) : Settled A :=
  match o with
  | Value v => Fulfilled v
  | Error e => Raised e
  end.

(** A store that is down: every batch fetch fails. *)
Definition unavailable_store : FallibleStore :=
  λ R call, LoadError "data store unavailable".

(** * Properties *)

(** ** Membership in the sets of [get_countries_codes_list] *)

Section coverage.
Implicit Types (zones : list ShippingZone.t) (c : string) (acc : gset string).

Lemma elem_of_zone_codes c zone :
  c ∈ zone_codes zone ↔
  ∃ country, country ∈ ShippingZone.countries zone ∧ Country.code country = c.
Proof.
  unfold zone_codes. rewrite elem_of_list_to_set, list_elem_of_fmap.
  split; intros (country & ? & ?); exists country; by split.
Qed.

Lemma elem_of_update_covered c acc zones :
  c ∈ update_covered acc zones ↔
  c ∈ acc ∨ ∃ zone, zone ∈ zones ∧ c ∈ zone_codes zone.
Proof.
  revert acc. induction zones as [|z zs IH]; intros acc; simpl.
  - split; [by left|]. intros [?|(z & Hz & _)]; [done|]. by inversion Hz.
  - rewrite IH, elem_of_union. split.
    + intros [[?|?]|(z' & ? & ?)]; [by left| |].
      * right. exists z. split; [left|done].
      * right. exists z'. split; [by right|done].
    + intros [?|(z' & Hz' & ?)]; [by left; left|].
      apply elem_of_cons in Hz' as [->|?]; [by left; right|].
      right. by exists z'.
Qed.

Lemma elem_of_covered c zones :
  c ∈ covered_countries_codes zones ↔
  ∃ zone country, zone ∈ zones ∧ country ∈ ShippingZone.countries zone
                  ∧ Country.code country = c.
Proof.
  unfold covered_countries_codes.
  rewrite elem_of_update_covered. setoid_rewrite elem_of_zone_codes.
  split.
  - intros [?|(z & ? & k & ? & ?)]; [set_solver|]. by exists z, k.
  - intros (z & k & ? & ? & ?). right. exists z. split; [done|]. by exists k.
Qed.

Lemma elem_of_all_countries_codes c countries :
  c ∈ all_countries_codes countries ↔ ∃ name, (c, name) ∈ countries.
Proof.
  unfold all_countries_codes. rewrite elem_of_list_to_set, list_elem_of_fmap.
  split.
  - intros ([c' n] & -> & ?). by exists n.
  - intros (n & ?). by exists (c, n).
Qed.

Lemma covered_no_zones : covered_countries_codes [] = ∅.
Proof. reflexivity. Qed.

(** Zones whose country codes all come from the reference table cover a part
    of the universe. *)
Lemma covered_within_universe countries zones :
  (∀ zone country, zone ∈ zones → country ∈ ShippingZone.countries zone →
     ∃ name, (Country.code country, name) ∈ countries) →
  covered_countries_codes zones ⊆ all_countries_codes countries.
Proof.
  intros Hknown c (zone & country & Hz & Hc & <-)%elem_of_covered.
  apply elem_of_all_countries_codes. eauto.
Qed.

(** C4. [get_countries_codes_list] returns the universe of all known country
    codes when the filter is absent, the union of the country codes of every
    shipping zone when the filter is true, and the universe minus that union
    when the filter is false. *)
Theorem get_countries_codes_list_spec countries zones :
  let universe := get_countries_codes_list countries zones None in
  let covered := get_countries_codes_list countries zones (Some true) in
  let uncovered := get_countries_codes_list countries zones (Some false) in
  (∀ c, c ∈ universe ↔ ∃ name, (c, name) ∈ countries)
  ∧ (∀ c, c ∈ covered ↔
          ∃ zone country, zone ∈ zones ∧ country ∈ ShippingZone.countries zone
                          ∧ Country.code country = c)
  ∧ uncovered = universe ∖ covered.
Proof.
  simpl. split; [|split].
  - intros c. apply elem_of_all_countries_codes.
  - intros c. apply elem_of_covered.
  - reflexivity.
Qed.

(** C2, as the specification states it, fails: a zone may list a code the
    reference table does not know (here Kosovo, "XK"); the covered set then
    holds a code outside the universe, and so does the union. *)
Lemma coverage_union_counterexample :
  let countries := [("PL", "Poland"); ("DE", "Germany")] in
  let zones := [ShippingZone.Build 1 [Country.Build "PL" "Poland";
                                       Country.Build "XK" "Kosovo"]] in
  ¬ (get_countries_codes_list countries zones (Some false)
       ## get_countries_codes_list countries zones (Some true)
     ∧ get_countries_codes_list countries zones (Some false)
         ∪ get_countries_codes_list countries zones (Some true)
       = get_countries_codes_list countries zones None).
Proof.
  intros countries zones [_ Hunion].
  assert (Hin : "XK" ∈ get_countries_codes_list countries zones None).
  { rewrite <- Hunion. apply elem_of_union_r, elem_of_covered.
    exists (ShippingZone.Build 1 [Country.Build "PL" "Poland"; Country.Build "XK" "Kosovo"]),
           (Country.Build "XK" "Kosovo").
    split; [apply list_elem_of_here|]. split; [|done].
    apply list_elem_of_further, list_elem_of_here. }
  apply elem_of_all_countries_codes in Hin as [name Hin].
  apply elem_of_cons in Hin as [Hin|Hin]; [discriminate|].
  apply elem_of_cons in Hin as [Hin|Hin]; [discriminate|].
  by apply elem_of_nil in Hin.
Qed.

(** C2, amended. For every set of shipping zones and every universe of country
    codes, the uncovered and the covered set are disjoint; when the covered
    set lies within the universe, their union is the set returned for
    filter=all; with zero zones the covered set is empty and the uncovered set
    is the universe. *)
Theorem coverage_partition countries zones :
  get_countries_codes_list countries zones (Some false)
    ## get_countries_codes_list countries zones (Some true)
  ∧ (get_countries_codes_list countries zones (Some true)
       ⊆ get_countries_codes_list countries zones None →
     get_countries_codes_list countries zones (Some false)
       ∪ get_countries_codes_list countries zones (Some true)
     = get_countries_codes_list countries zones None)
  ∧ get_countries_codes_list countries [] (Some true) = ∅
  ∧ get_countries_codes_list countries [] (Some false)
    = get_countries_codes_list countries [] None.
Proof.
  simpl. rewrite covered_no_zones.
  split; [set_solver|]. split; [|split; [done|set_solver]].
  intros Hsub.
  apply set_eq. intros c. rewrite elem_of_union, elem_of_difference.
  destruct (decide (c ∈ covered_countries_codes zones)); set_solver.
Qed.

Lemma coverage_partition_witness :
  let countries := [("PL", "Poland"); ("DE", "Germany"); ("FR", "France")] in
  let zones := [ShippingZone.Build 1 [Country.Build "PL" "Poland"];
                ShippingZone.Build 2 [Country.Build "DE" "Germany";
                                      Country.Build "PL" "Poland"]] in
  get_countries_codes_list countries zones (Some true)
    ⊆ get_countries_codes_list countries zones None
  ∧ get_countries_codes_list countries zones (Some false)
    ## get_countries_codes_list countries zones (Some true)
  ∧ get_countries_codes_list countries zones (Some false)
      ∪ get_countries_codes_list countries zones (Some true)
    = get_countries_codes_list countries zones None
  ∧ get_countries_codes_list countries [] (Some true) = ∅
  ∧ get_countries_codes_list countries [] (Some false)
    = get_countries_codes_list countries [] None.
Proof.
  intros countries zones.
  assert (Hwithin : get_countries_codes_list countries zones (Some true)
                      ⊆ get_countries_codes_list countries zones None).
  { apply (bool_decide_unpack _). vm_compute. reflexivity. }
  destruct (coverage_partition countries zones)
    as (Hdisjoint & Hunion & Hnone & Hall).
  split; [exact Hwithin|]. split; [exact Hdisjoint|].
  split; [exact (Hunion Hwithin)|]. split; [exact Hnone|exact Hall].
Defined.
End coverage.

(** ** Settling promises *)

Section promises.
Context {A : Type}.
Implicit Types (store : DataStore) (p : Promise A).

Lemma run_Return store (v : A) : run store (Return v) = ([], Value v).
Proof. reflexivity. Qed.

Lemma run_Load store {R} (call : Loader R) (then_ : R → Promise A) :
  run store (Load call then_)
  = (fetch call :: fetches store (then_ (store R call)),
     outcome store (then_ (store R call))).
Proof.
  unfold fetches, outcome. simpl.
  by destruct (run store (then_ (store R call))).
Qed.

Lemma run_fetches_outcome store p : run store p = (fetches store p, outcome store p).
Proof. unfold fetches, outcome. by destruct (run store p). Qed.

(** A promise that issues no fetch was returned, or raised, by the resolver
    itself. *)
Lemma no_fetch_immediate store p :
  fetches store p = [] → (∃ v, p = Return v) ∨ (∃ e, p = Raise e).
Proof.
  destruct p as [v|e|R call k]; [eauto..|].
  unfold fetches. rewrite run_Load. discriminate.
Qed.
End promises.

(** ** Channel-scoped price fields *)

Section price_fields.
Implicit Types (store : DataStore) (root : ShippingMethodRoot) (info : Info.t).

Ltac fetch_case Hcase :=
  destruct Hcase as (Hfield & Hslug & Hne & Hext);
  cbv beta delta [resolve_price resolve_maximum_order_price resolve_minimum_order_price] zeta;
  rewrite Hfield, Hslug, Hext;
  match goal with s : string |- _ => destruct s as [|? ?]; [done|] end;
  rewrite run_Load.

(** [resolve_price] asks the loader for (entity id, channel slug) and projects
    [price] from the listing, [None] when there is no listing. *)
Lemma resolve_price_fetch store root info channel_slug :
  must_fetch ShippingMethodNode.price root channel_slug →
  let key := (ShippingMethodNode.id (ChannelContext.node root), channel_slug) in
  run store (resolve_price root info)
  = ([fetch (listing_loader key)],
     Value (store _ (listing_loader key) ≫= ShippingMethodChannelListing.price)).
Proof.
  intros Hcase key. fetch_case Hcase.
  subst key. by destruct (store _ _).
Qed.

(** The two order-price resolvers project their field from a listing that
    exists, and raise when there is none. *)
Lemma resolve_maximum_order_price_fetch store root info channel_slug :
  must_fetch ShippingMethodNode.maximum_order_price root channel_slug →
  let key := (ShippingMethodNode.id (ChannelContext.node root), channel_slug) in
  run store (resolve_maximum_order_price root info)
  = ([fetch (listing_loader key)],
     match store _ (listing_loader key) with
     | Some listing => Value (ShippingMethodChannelListing.maximum_order_price listing)
     | None => Error AttributeError
     end).
Proof.
  intros Hcase key. fetch_case Hcase.
  subst key. by destruct (store _ _).
Qed.

Lemma resolve_minimum_order_price_fetch store root info channel_slug :
  must_fetch ShippingMethodNode.minimum_order_price root channel_slug →
  let key := (ShippingMethodNode.id (ChannelContext.node root), channel_slug) in
  run store (resolve_minimum_order_price root info)
  = ([fetch (listing_loader key)],
     match store _ (listing_loader key) with
     | Some listing => Value (ShippingMethodChannelListing.minimum_order_price listing)
     | None => Error AttributeError
     end).
Proof.
  intros Hcase key. fetch_case Hcase.
  subst key. by destruct (store _ _).
Qed.
End price_fields.

Section price_fields_claims.
Implicit Types (store : DataStore) (root : ShippingMethodRoot) (info : Info.t).

(** C1. Each channel-scoped price resolver, when the entity carries no
    pre-computed value, a channel slug is present and the entity is not
    externally sourced, fetches (entity id, channel slug) and should give the
    listing's sub-field, or an absent value when no listing exists. Shipping
    method 5 has no listing in channel "default" of the empty store:
    [resolve_price] gives the absent value, while
    [resolve_maximum_order_price] and [resolve_minimum_order_price] end in
    [AttributeError] after the same fetch. *)
Theorem order_price_without_listing_raises :
  let root := ChannelContext.Build local_method (Some "default") in
  let key := (IntId 5, "default") in
  must_fetch ShippingMethodNode.price root "default"
  ∧ must_fetch ShippingMethodNode.maximum_order_price root "default"
  ∧ must_fetch ShippingMethodNode.minimum_order_price root "default"
  ∧ empty_store _ (listing_loader key) = None
  ∧ run empty_store (resolve_price root staff_info)
    = ([fetch (listing_loader key)], Value None)
  ∧ run empty_store (resolve_maximum_order_price root staff_info)
    = ([fetch (listing_loader key)], Error AttributeError)
  ∧ run empty_store (resolve_minimum_order_price root staff_info)
    = ([fetch (listing_loader key)], Error AttributeError).
Proof. unfold must_fetch. simpl. repeat split; done. Qed.

(** Where the listing exists, all three resolvers project their own
    sub-field from it. *)
Example price_fields_with_listing :
  let root := ChannelContext.Build local_method (Some "default") in
  outcome sample_store (resolve_price root staff_info) = Value (Some (usd 1000))
  ∧ outcome sample_store (resolve_maximum_order_price root staff_info)
    = Value (Some (usd 50000))
  ∧ outcome sample_store (resolve_minimum_order_price root staff_info)
    = Value (Some (usd 0)).
Proof. repeat split. Qed.

Ltac check_order root store :=
  unfold dispatch_spec, resolve_price, resolve_maximum_order_price,
    resolve_minimum_order_price;
  cbv zeta;
  match goal with |- follows _ (match ?field with _ => _ end) _ => destruct field end;
  [reflexivity|];
  destruct (ChannelContext.channel_slug root) as [[|? ?]|];
  [reflexivity| |reflexivity];
  destruct (getattr_is_external (ChannelContext.node root)); [reflexivity|];
  unfold follows, fetches; rewrite run_Load; simpl;
  match goal with |- context [store ?R ?call] => destruct (store R call) end;
  reflexivity.

(** C3. Each of the three channel-scoped price resolvers applies the checks in
    the order of the specification: a pre-computed value is returned directly
    and no loader is called; else, without a channel slug, the absent value;
    else, for an externally sourced entity, the absent value; only otherwise
    is the loader asked, for (entity id, channel slug). *)
Theorem price_fields_check_order store root info :
  follows store (dispatch_spec ShippingMethodNode.price root)
    (resolve_price root info)
  ∧ follows store (dispatch_spec ShippingMethodNode.maximum_order_price root)
      (resolve_maximum_order_price root info)
  ∧ follows store (dispatch_spec ShippingMethodNode.minimum_order_price root)
      (resolve_minimum_order_price root info).
Proof. split; [|split]; check_order root store. Qed.

(** The three early exits at work: a pre-computed price wins over a missing
    channel and over the external flag; a missing channel wins over the
    external flag. *)
Example check_order_early_exits :
  dispatch_spec ShippingMethodNode.price (ChannelContext.Build priced_method None)
  = Precomputed (usd 1000)
  ∧ dispatch_spec ShippingMethodNode.price (ChannelContext.Build external_method None)
    = NoChannel
  ∧ dispatch_spec ShippingMethodNode.price
      (ChannelContext.Build external_method (Some "default"))
    = ExternallySourced
  ∧ dispatch_spec ShippingMethodNode.price
      (ChannelContext.Build local_method (Some "default"))
    = FetchListing (IntId 5, "default").
Proof. repeat split. Qed.

(** C5, as the specification states it, fails: the priced method wrapped with
    no channel slug resolves to its price, not to the absent value. *)
Lemma resolve_price_no_channel_counterexample :
  let root := ChannelContext.Build priced_method None in
  ChannelContext.channel_slug root = None
  ∧ outcome empty_store (resolve_price root staff_info) ≠ Value None.
Proof. split; [reflexivity|discriminate]. Qed.

(** C5, amended. For every ShippingMethod wrapped with no channel slug,
    [resolve_price] invokes no loader, and returns the pre-computed price the
    entity carries, hence the absent value when it carries none. *)
Theorem resolve_price_no_channel store root info :
  ChannelContext.channel_slug root = None →
  fetches store (resolve_price root info) = []
  ∧ outcome store (resolve_price root info)
    = Value (ShippingMethodNode.price (ChannelContext.node root)).
Proof.
  intros Hslug. unfold resolve_price. cbv zeta. rewrite Hslug.
  by destruct (ShippingMethodNode.price _).
Qed.

Lemma resolve_price_no_channel_witness :
  let root := ChannelContext.Build local_method None in
  ChannelContext.channel_slug root = None
  ∧ fetches sample_store (resolve_price root staff_info) = []
  ∧ outcome sample_store (resolve_price root staff_info) = Value None.
Proof.
  intros root. split; [reflexivity|].
  apply (resolve_price_no_channel sample_store root staff_info). reflexivity.
Defined.
End price_fields_claims.

(** ** Externally sourced methods, identifiers, and connections *)

Section shipping_method_claims.
Implicit Types (store : DataStore) (root : ShippingMethodRoot) (info : Info.t).

(** C6. For every externally sourced ShippingMethod,
    [resolve_postal_code_rules] returns the absent value and
    [resolve_channel_listings] returns the absent value, or access-denied for
    a caller without the manage-shipping capability; neither issues a loader
    fetch. *)
Theorem external_method_no_fetch store root info :
  getattr_is_external (ChannelContext.node root) = true →
  run store (resolve_postal_code_rules root info) = ([], Value None)
  ∧ run store (resolve_channel_listings root info ())
    = ([], if Context.has_capability (Info.context info) ShippingPermissions.MANAGE_SHIPPING
           then Value None else Error PermissionDenied).
Proof.
  intros Hext.
  unfold resolve_postal_code_rules, resolve_channel_listings, permission_required.
  cbv zeta. rewrite Hext.
  by destruct (Context.has_capability _ _).
Qed.

Lemma external_method_no_fetch_witness :
  let root := ChannelContext.Build external_method (Some "default") in
  getattr_is_external (ChannelContext.node root) = true
  ∧ run sample_store (resolve_postal_code_rules root staff_info) = ([], Value None)
  ∧ run sample_store (resolve_channel_listings root staff_info ()) = ([], Value None).
Proof.
  intros root. split; [reflexivity|].
  apply (external_method_no_fetch sample_store root staff_info). reflexivity.
Defined.

(** The same two resolvers on a locally stored method do ask their loaders. *)
Example local_method_fetches :
  let root := ChannelContext.Build local_method (Some "default") in
  run sample_store (resolve_postal_code_rules root staff_info)
  = ([fetch (PostalCodeRulesByShippingMethodIdLoader (IntId 5))], Value (Some []))
  ∧ run sample_store (resolve_channel_listings root staff_info ())
    = ([fetch (ShippingMethodChannelListingByShippingMethodIdLoader (IntId 5))],
       Value (Some [default_listing]))
  ∧ run sample_store (resolve_channel_listings root anonymous_info ())
    = ([], Error PermissionDenied).
Proof. repeat split. Qed.

(** C7. [resolve_id] returns the entity's raw identifier unmodified when the
    entity is externally sourced, and the global-id encoding of the type name
    "ShippingMethod" with the local id when the entity is locally stored (its
    [is_external] attribute is false or missing). *)
Theorem resolve_id_spec (to_global_id : string → PyId → string) store root info :
  let node := ChannelContext.node root in
  run store (resolve_id to_global_id root info)
  = ([], Value (Some
       match ShippingMethodNode.is_external node with
       | Some true => ShippingMethodNode.id node
       | Some false | None =>
           StrId (to_global_id "ShippingMethod" (ShippingMethodNode.id node))
       end)).
Proof.
  unfold resolve_id, getattr_is_external. cbv zeta.
  by destruct (ShippingMethodNode.is_external _) as [[|]|].
Qed.

(** C10. For every caller holding the manage-shipping capability, when the
    shipping method's excluded-products collection is empty or absent,
    [resolve_excluded_products] returns a connection built over an empty
    product set, not the absent value, and issues no loader fetch. *)
Theorem resolve_excluded_products_empty {Connection : Type}
    (create_connection_slice : ProductQs → Info.t → Kwargs.t → ConnectionType → Connection)
    store root info kwargs :
  Context.has_capability (Info.context info) ShippingPermissions.MANAGE_SHIPPING = true →
  ShippingMethodNode.excluded_products (ChannelContext.node root) = None
  ∨ ShippingMethodNode.excluded_products (ChannelContext.node root) = Some [] →
  ∃ qs, qs_rows qs = []
        ∧ run store (resolve_excluded_products create_connection_slice root info kwargs)
          = ([], Value (Some (create_connection_slice qs info kwargs
                                ProductCountableConnection))).
Proof.
  intros Hcap Hempty.
  unfold resolve_excluded_products, permission_required. rewrite Hcap. cbv zeta.
  destruct Hempty as [-> | ->]; eexists; (split; [|reflexivity]); reflexivity.
Qed.

Lemma resolve_excluded_products_empty_witness :
  let root := ChannelContext.Build local_method None in
  let kwargs := Kwargs.Build (Some 10%Z) None None None in
  let slice := λ (qs : ProductQs) (_ : Info.t) (kw : Kwargs.t) (_ : ConnectionType), (qs, kw) in
  Context.has_capability (Info.context staff_info) ShippingPermissions.MANAGE_SHIPPING = true
  ∧ ShippingMethodNode.excluded_products (ChannelContext.node root) = Some []
  ∧ ∃ qs, qs_rows qs = []
          ∧ run sample_store (resolve_excluded_products slice root staff_info kwargs)
            = ([], Value (Some (slice qs staff_info kwargs ProductCountableConnection))).
Proof.
  intros root kwargs slice. split; [reflexivity|]. split; [reflexivity|].
  apply (resolve_excluded_products_empty slice sample_store root staff_info kwargs).
  - reflexivity.
  - right. reflexivity.
Defined.
End shipping_method_claims.

(** ** Shipping zones *)

Section shipping_zone_claims.
Implicit Types (store : DataStore) (root : ShippingZoneRoot).

(** C9. For every shipping zone, [resolve_countries] returns a list, never
    the absent value, issued without any loader fetch, holding exactly one
    [CountryDisplay] per country of the zone, in the same order, with [code]
    and the name copied from that country. *)
Theorem resolve_countries_spec store root :
  let countries := ShippingZone.countries (ChannelContext.node root) in
  ∃ displays : list CountryDisplay.t,
    run store (resolve_countries root) = ([], Value (Some displays))
    ∧ length displays = length countries
    ∧ ∀ i : nat,
        CountryDisplay.code <$> displays !! i = Country.code <$> countries !! i
        ∧ CountryDisplay.country <$> displays !! i = Country.name <$> countries !! i.
Proof.
  intros countries. eexists. split; [reflexivity|]. split.
  - apply length_fmap.
  - intros i. rewrite list_lookup_fmap. fold countries.
    by destruct (countries !! i).
Qed.

Example resolve_countries_sample :
  let zone := ShippingZone.Build 1 [Country.Build "PL" "Poland";
                                     Country.Build "DE" "Germany"] in
  run empty_store (resolve_countries (ChannelContext.Build zone None))
  = ([], Value (Some [CountryDisplay.Build "PL" "Poland";
                      CountryDisplay.Build "DE" "Germany"])).
Proof. reflexivity. Qed.
End shipping_zone_claims.

(** * Further properties of the code *)

(** ** Coverage as a function of the zones *)

Section coverage_algebra.
Implicit Types (zones : list ShippingZone.t) (countries : list (string * string)).

Lemma covered_app zones zones' :
  covered_countries_codes (zones ++ zones')
  = covered_countries_codes zones ∪ covered_countries_codes zones'.
Proof.
  apply set_eq. intros c.
  rewrite elem_of_union, !elem_of_covered. split.
  - intros (z & k & [?|?]%elem_of_app & ? & ?); [left|right]; by exists z, k.
  - intros [(z & k & ? & ? & ?)|(z & k & ? & ? & ?)]; exists z, k;
      (split; [apply elem_of_app; auto|done]).
Qed.

Lemma covered_mono zones zones' :
  zones ⊆ zones' → covered_countries_codes zones ⊆ covered_countries_codes zones'.
Proof.
  intros Hsub c (z & k & ? & ? & ?)%elem_of_covered.
  apply elem_of_covered. exists z, k. split; [by apply Hsub|done].
Qed.

(** X1. The three results depend only on which zones exist: the order in
    which the iterator yields them and repeated rows play no role. *)
Theorem coverage_same_zones countries zones zones' in_shipping_zones :
  (∀ zone, zone ∈ zones ↔ zone ∈ zones') →
  get_countries_codes_list countries zones in_shipping_zones
  = get_countries_codes_list countries zones' in_shipping_zones.
Proof.
  intros Hsame.
  assert (covered_countries_codes zones = covered_countries_codes zones') as Hcov.
  { apply set_eq. intros c. split; apply covered_mono; intros z; apply Hsame. }
  unfold get_countries_codes_list. cbv zeta. by rewrite Hcov.
Qed.

Lemma coverage_same_zones_witness :
  let countries := [("PL", "Poland"); ("DE", "Germany"); ("FR", "France")] in
  let pl := ShippingZone.Build 1 [Country.Build "PL" "Poland"] in
  let de := ShippingZone.Build 2 [Country.Build "DE" "Germany"] in
  get_countries_codes_list countries [pl; de] (Some false)
  = get_countries_codes_list countries [de; pl; de] (Some false).
Proof.
  intros countries pl de.
  apply (coverage_same_zones countries [pl; de] [de; pl; de] (Some false)).
  intros zone. rewrite !elem_of_cons, elem_of_nil. tauto.
Defined.

(** X2. Coverage of two batches of zones composes: the covered set of the
    concatenation is the union of the covered sets, the uncovered set the
    intersection of the uncovered sets. *)
Theorem coverage_app countries zones zones' :
  get_countries_codes_list countries (zones ++ zones') (Some true)
  = get_countries_codes_list countries zones (Some true)
    ∪ get_countries_codes_list countries zones' (Some true)
  ∧ get_countries_codes_list countries (zones ++ zones') (Some false)
    = get_countries_codes_list countries zones (Some false)
      ∩ get_countries_codes_list countries zones' (Some false).
Proof.
  simpl. rewrite covered_app. split; [done|]. set_solver.
Qed.

(** X3. More zones never uncover a country: when every zone of [zones] is
    among [zones'], the covered set grows and the uncovered set shrinks. *)
Theorem coverage_monotone countries zones zones' :
  zones ⊆ zones' →
  get_countries_codes_list countries zones (Some true)
    ⊆ get_countries_codes_list countries zones' (Some true)
  ∧ get_countries_codes_list countries zones' (Some false)
    ⊆ get_countries_codes_list countries zones (Some false).
Proof.
  intros Hsub%covered_mono. simpl. split; [done|]. set_solver.
Qed.

Lemma coverage_monotone_witness :
  let countries := [("PL", "Poland"); ("DE", "Germany"); ("FR", "France")] in
  let pl := ShippingZone.Build 1 [Country.Build "PL" "Poland"] in
  let de := ShippingZone.Build 2 [Country.Build "DE" "Germany"] in
  get_countries_codes_list countries [pl] (Some true)
    ⊆ get_countries_codes_list countries [de; pl] (Some true)
  ∧ get_countries_codes_list countries [de; pl] (Some false)
    ⊆ get_countries_codes_list countries [pl] (Some false).
Proof.
  intros countries pl de.
  apply (coverage_monotone countries [pl] [de; pl]).
  intros zone. rewrite !elem_of_cons, elem_of_nil. tauto.
Defined.

(** X4. Whatever the zones list, the uncovered and the covered set together
    make up the universe joined with the covered set; they make up the
    universe exactly when every covered code is a known one. *)
Theorem coverage_union countries zones :
  let universe := get_countries_codes_list countries zones None in
  let covered := get_countries_codes_list countries zones (Some true) in
  let uncovered := get_countries_codes_list countries zones (Some false) in
  uncovered ∪ covered = universe ∪ covered
  ∧ (uncovered ∪ covered = universe ↔ covered ⊆ universe).
Proof.
  simpl.
  assert (∀ U C : gset string, U ∖ C ∪ C = U ∪ C) as Hunion.
  { intros U C. apply set_eq. intros c.
    rewrite !elem_of_union, elem_of_difference.
    destruct (decide (c ∈ C)); tauto. }
  split; [apply Hunion|]. rewrite Hunion. set_solver.
Qed.

(** X5. No known country is left uncovered exactly when the zones cover the
    whole universe; and every uncovered code is a known code that no zone
    lists. *)
Theorem uncovered_empty_iff countries zones :
  let universe := get_countries_codes_list countries zones None in
  let covered := get_countries_codes_list countries zones (Some true) in
  let uncovered := get_countries_codes_list countries zones (Some false) in
  (uncovered = ∅ ↔ universe ⊆ covered)
  ∧ uncovered ⊆ universe.
Proof.
  simpl. split; [|set_solver]. split.
  - intros Hempty c Hc.
    destruct (decide (c ∈ covered_countries_codes zones)) as [|Hout]; [done|].
    assert (c ∈ all_countries_codes countries ∖ covered_countries_codes zones) as Hin
      by (by apply elem_of_difference).
    rewrite Hempty in Hin. by apply not_elem_of_empty in Hin.
  - intros Hsub. apply set_eq. intros c.
    rewrite elem_of_difference. split; [|by intros ?%not_elem_of_empty].
    intros [Hin Hout]. by apply Hsub in Hin.
Qed.

(** X6. The shop's covered set is what the zones display: a code is covered
    exactly when [resolve_countries] shows it for some zone. *)
Theorem covered_iff_displayed countries zones (c : string) :
  c ∈ get_countries_codes_list countries zones (Some true)
  ↔ ∃ zone display, zone ∈ zones ∧ display ∈ displayed_countries zone
                    ∧ CountryDisplay.code display = c.
Proof.
  simpl. rewrite elem_of_covered. unfold displayed_countries. simpl. split.
  - intros (z & k & ? & ? & ?).
    exists z, (CountryDisplay.Build (Country.code k) (Country.name k)).
    split; [done|]. split; [|done].
    apply list_elem_of_fmap. by exists k.
  - intros (z & d & ? & (k & -> & ?)%list_elem_of_fmap & ?). by exists z, k.
Qed.
End coverage_algebra.

(** ** When the price fields fetch and when they fail *)

Section price_fields_outcomes.
Implicit Types (store : FallibleStore) (root : ShippingMethodRoot) (info : Info.t).

(** While no load fails, [settle] and [run] tell the same story. *)
Lemma settle_reliable {A : Type} (dstore : DataStore) (p : Promise A) :
  settle (reliable dstore) p
  = (fetches dstore p, settled_of_outcome (outcome dstore p)).
Proof.
  induction p as [v|e|R call k IH]; [done..|].
  cbn [settle]. unfold reliable at 1. rewrite IH.
  unfold fetches, outcome. by rewrite run_Load.
Qed.

Ltac settle_cases root store :=
  unfold resolve_price, resolve_maximum_order_price, resolve_minimum_order_price,
    must_fetch;
  cbv zeta;
  match goal with
  | |- context [match ?field (ChannelContext.node root) with _ => _ end] =>
      destruct (field (ChannelContext.node root)) eqn:Hfield
  end;
  destruct (ChannelContext.channel_slug root) as [[|a s]|] eqn:Hslug;
  destruct (getattr_is_external (ChannelContext.node root)) eqn:Hext;
  simpl;
  try match goal with
      | |- context [store ?R ?call] =>
          destruct (store R call) as [[listing|]|failure] eqn:Hstore
      end;
  simpl.

(** Closes [settled = ... ↔ conditions ∧ store key = result] once the cases
    are laid out by [settle_cases]. *)
Ltac settle_iff a s :=
  split;
  [ intros Hend;
    first [ discriminate Hend
          | injection Hend as <-;
            repeat match goal with |- _ = _ ∧ _ => split; [reflexivity|] end;
            exists (String a s); by repeat split ]
  | intros Hcase;
    repeat match type of Hcase with
           | _ = _ ∧ _ => let Heq := fresh in destruct Hcase as [Heq Hcase]; subst
           end;
    destruct Hcase as (slug & (? & Hs & Hne & ?) & Hresult);
    first [ discriminate | congruence
          | injection Hs as <-; first [congruence | reflexivity] ] ].

(** X7. [resolve_price] raises no exception of its own, also when loads can
    fail: its promise is rejected only by the error of its one fetch, which
    happens exactly when the fetch is due (nothing pre-computed, a channel
    slug present, the entity not external) and the store fails it. At most
    one fetch is issued. *)
Theorem resolve_price_never_raises store root info :
  (∀ error, snd (settle store (resolve_price root info)) ≠ Raised error)
  ∧ (∀ reason,
       snd (settle store (resolve_price root info)) = StoreFailed reason
       ↔ ∃ channel_slug,
           must_fetch ShippingMethodNode.price root channel_slug
           ∧ store _ (listing_loader (ShippingMethodNode.id (ChannelContext.node root),
                                      channel_slug)) = LoadError reason)
  ∧ (length (fst (settle store (resolve_price root info))) ≤ 1)%nat.
Proof.
  split; [|split].
  - intros error. settle_cases root store; discriminate.
  - intros reason. settle_cases root store; settle_iff a s.
  - settle_cases root store; lia.
Qed.

(** X8. [resolve_maximum_order_price] and [resolve_minimum_order_price] are
    rejected in two cases only, both on the path where the fetch is due
    (nothing pre-computed, a channel slug present, the entity not external):
    by [AttributeError], exactly when the load resolves to no listing; by the
    error of the load, exactly when the store fails it. *)
Theorem order_price_raises_iff store root info :
  (∀ error,
     snd (settle store (resolve_maximum_order_price root info)) = Raised error
     ↔ error = AttributeError
       ∧ ∃ channel_slug,
           must_fetch ShippingMethodNode.maximum_order_price root channel_slug
           ∧ store _ (listing_loader (ShippingMethodNode.id (ChannelContext.node root),
                                      channel_slug)) = Loaded None)
  ∧ (∀ reason,
       snd (settle store (resolve_maximum_order_price root info)) = StoreFailed reason
       ↔ ∃ channel_slug,
           must_fetch ShippingMethodNode.maximum_order_price root channel_slug
           ∧ store _ (listing_loader (ShippingMethodNode.id (ChannelContext.node root),
                                      channel_slug)) = LoadError reason)
  ∧ (∀ error,
       snd (settle store (resolve_minimum_order_price root info)) = Raised error
       ↔ error = AttributeError
         ∧ ∃ channel_slug,
             must_fetch ShippingMethodNode.minimum_order_price root channel_slug
             ∧ store _ (listing_loader (ShippingMethodNode.id (ChannelContext.node root),
                                        channel_slug)) = Loaded None)
  ∧ (∀ reason,
       snd (settle store (resolve_minimum_order_price root info)) = StoreFailed reason
       ↔ ∃ channel_slug,
           must_fetch ShippingMethodNode.minimum_order_price root channel_slug
           ∧ store _ (listing_loader (ShippingMethodNode.id (ChannelContext.node root),
                                      channel_slug)) = LoadError reason).
Proof.
  split; [|split; [|split]]; intros ?; settle_cases root store; settle_iff a s.
Qed.

(** With the store down, the fetch is still issued once and its error is what
    each price field ends in; the continuation, and with it the
    [AttributeError], is never reached. *)
Example price_fields_store_down :
  let root := ChannelContext.Build local_method (Some "default") in
  let key := (IntId 5, "default") in
  settle unavailable_store (resolve_price root staff_info)
  = ([fetch (listing_loader key)], StoreFailed "data store unavailable")
  ∧ settle unavailable_store (resolve_maximum_order_price root staff_info)
    = ([fetch (listing_loader key)], StoreFailed "data store unavailable")
  ∧ settle unavailable_store (resolve_minimum_order_price root staff_info)
    = ([fetch (listing_loader key)], StoreFailed "data store unavailable")
  ∧ settle (reliable empty_store) (resolve_maximum_order_price root staff_info)
    = ([fetch (listing_loader key)], Raised AttributeError).
Proof. repeat split. Qed.
End price_fields_outcomes.

(** ** Externally sourced and locally stored methods *)

Section external_and_local.
Implicit Types (store : DataStore) (root : ShippingMethodRoot) (info : Info.t).

(** X9. The price fields of an externally sourced method are the values the
    entity carries: each of the three resolvers returns its own attribute,
    absent when the entity has none, with no fetch and no exception. *)
Theorem external_method_price_fields store root info :
  getattr_is_external (ChannelContext.node root) = true →
  run store (resolve_price root info)
  = ([], Value (ShippingMethodNode.price (ChannelContext.node root)))
  ∧ run store (resolve_maximum_order_price root info)
    = ([], Value (ShippingMethodNode.maximum_order_price (ChannelContext.node root)))
  ∧ run store (resolve_minimum_order_price root info)
    = ([], Value (ShippingMethodNode.minimum_order_price (ChannelContext.node root))).
Proof.
  intros Hext.
  unfold resolve_price, resolve_maximum_order_price, resolve_minimum_order_price.
  cbv zeta. rewrite Hext.
  destruct (ChannelContext.channel_slug root) as [[|a s]|];
    destruct (ShippingMethodNode.price _),
             (ShippingMethodNode.maximum_order_price _),
             (ShippingMethodNode.minimum_order_price _); done.
Qed.

Lemma external_method_price_fields_witness :
  let root := ChannelContext.Build external_method (Some "default") in
  run sample_store (resolve_price root staff_info) = ([], Value None)
  ∧ run sample_store (resolve_maximum_order_price root staff_info) = ([], Value None)
  ∧ run sample_store (resolve_minimum_order_price root staff_info) = ([], Value None).
Proof.
  intros root.
  apply (external_method_price_fields sample_store root staff_info). reflexivity.
Defined.

(** X10. The postal code rules of a method are absent exactly when the method
    is externally sourced, and exactly then no fetch is made; a local method
    with no rules gets the empty list the loader gives, not the absent value.
    The same holds for the channel listings of a caller who passed the
    permission guard. *)
Theorem absent_iff_external store root info :
  let external := getattr_is_external (ChannelContext.node root) in
  let granted :=
    Context.has_capability (Info.context info) ShippingPermissions.MANAGE_SHIPPING in
  (outcome store (resolve_postal_code_rules root info) = Value None ↔ external = true)
  ∧ (fetches store (resolve_postal_code_rules root info) = [] ↔ external = true)
  ∧ (outcome store (resolve_channel_listings root info ()) = Value None
     ↔ granted = true ∧ external = true)
  ∧ (fetches store (resolve_channel_listings root info ()) = []
     ↔ granted = false ∨ external = true).
Proof.
  unfold resolve_postal_code_rules, resolve_channel_listings, permission_required,
    outcome, fetches.
  cbv zeta.
  destruct (Context.has_capability _ _), (getattr_is_external _); simpl;
    repeat split; try done; intros; try discriminate; intuition discriminate.
Qed.
End external_and_local.

(** ** Shipping methods reached through a zone *)

Section zone_methods.
Implicit Types (zstore : ZoneStore) (store : DataStore)
  (root : ShippingZoneRoot) (info : Info.t).

Lemma shipping_methods_of_wrap zstore root info :
  ∃ loaded, shipping_methods_of zstore root info
            = wrap_shipping_method_with_channel_context root loaded.
Proof.
  unfold shipping_methods_of, resolve_shipping_methods.
  destruct (ChannelContext.channel_slug root) as [[|a s]|]; simpl; eauto.
Qed.

Lemma wrapped_channel_slug root loaded :
  Forall (λ method, ChannelContext.channel_slug method = ChannelContext.channel_slug root)
    (wrap_shipping_method_with_channel_context root loaded).
Proof.
  unfold wrap_shipping_method_with_channel_context.
  apply Forall_fmap, Forall_forall. by intros.
Qed.


(** X12. Shipping methods reached through a zone that carries no channel slug
    (absent or empty) never cause a listing fetch: each price field settles at
    once to the value pre-computed on the method, absent when there is none,
    and no exception is raised. *)
Theorem zone_without_channel_price_fields zstore store root info :
  slug_truthy (ChannelContext.channel_slug root) = false →
  Forall (λ method,
            run store (resolve_price method info)
            = ([], Value (ShippingMethodNode.price (ChannelContext.node method)))
            ∧ run store (resolve_maximum_order_price method info)
              = ([], Value (ShippingMethodNode.maximum_order_price
                              (ChannelContext.node method)))
            ∧ run store (resolve_minimum_order_price method info)
              = ([], Value (ShippingMethodNode.minimum_order_price
                              (ChannelContext.node method))))
    (shipping_methods_of zstore root info).
Proof.
  intros Hfalsy.
  destruct (shipping_methods_of_wrap zstore root info) as [loaded ->].
  eapply Forall_impl; [apply wrapped_channel_slug|].
  intros method Hslug. simpl in Hslug.
  unfold resolve_price, resolve_maximum_order_price, resolve_minimum_order_price.
  cbv zeta. rewrite Hslug.
  destruct (ChannelContext.channel_slug root) as [[|a s]|]; try discriminate Hfalsy;
    destruct (ShippingMethodNode.price _),
             (ShippingMethodNode.maximum_order_price _),
             (ShippingMethodNode.minimum_order_price _); done.
Qed.

Lemma zone_without_channel_price_fields_witness :
  let root := ChannelContext.Build sample_zone (Some "") in
  shipping_methods_of sample_zone_store root staff_info
  = [ChannelContext.Build local_method (Some ""); ChannelContext.Build external_method (Some "")]
  ∧ Forall (λ method,
              run sample_store (resolve_price method staff_info)
              = ([], Value (ShippingMethodNode.price (ChannelContext.node method)))
              ∧ run sample_store (resolve_maximum_order_price method staff_info)
                = ([], Value (ShippingMethodNode.maximum_order_price
                                (ChannelContext.node method)))
              ∧ run sample_store (resolve_minimum_order_price method staff_info)
                = ([], Value (ShippingMethodNode.minimum_order_price
                                (ChannelContext.node method))))
      (shipping_methods_of sample_zone_store root staff_info).
Proof.
  intros root. split; [reflexivity|].
  apply (zone_without_channel_price_fields sample_zone_store sample_store root staff_info).
  reflexivity.
Defined.

(** X13. For shipping methods reached through a zone wrapped with a channel
    slug, every fetch a price field makes is the listing fetch keyed by that
    method's id and the zone's channel slug. *)
Theorem zone_channel_price_key zstore store root info (channel_slug : string) :
  ChannelContext.channel_slug root = Some channel_slug →
  Forall (λ method,
            ∀ f, f ∈ (fetches store (resolve_price method info)
                      ++ fetches store (resolve_maximum_order_price method info)
                      ++ fetches store (resolve_minimum_order_price method info))%list →
                 f = fetch (listing_loader
                              (ShippingMethodNode.id (ChannelContext.node method),
                               channel_slug)))
    (shipping_methods_of zstore root info).
Proof.
  intros Hroot.
  destruct (shipping_methods_of_wrap zstore root info) as [loaded ->].
  eapply Forall_impl; [apply wrapped_channel_slug|].
  intros method Hslug f. simpl in Hslug. rewrite Hroot in Hslug.
  unfold resolve_price, resolve_maximum_order_price, resolve_minimum_order_price, fetches.
  cbv zeta. rewrite Hslug.
  destruct channel_slug as [|a s];
    destruct (ShippingMethodNode.price (ChannelContext.node method)),
             (ShippingMethodNode.maximum_order_price (ChannelContext.node method)),
             (ShippingMethodNode.minimum_order_price (ChannelContext.node method)),
             (getattr_is_external (ChannelContext.node method));
    rewrite ?run_Load; simpl;
    repeat match goal with
           | |- context [store ?R ?call] => destruct (store R call)
           end;
    simpl; rewrite ?elem_of_cons, ?elem_of_nil; intuition.
Qed.

Lemma zone_channel_price_key_witness :
  let root := ChannelContext.Build sample_zone (Some "default") in
  shipping_methods_of sample_zone_store root staff_info
  = [ChannelContext.Build local_method (Some "default")]
  ∧ Forall (λ method,
              ∀ f, f ∈ (fetches sample_store (resolve_price method staff_info)
                        ++ fetches sample_store (resolve_maximum_order_price method staff_info)
                        ++ fetches sample_store (resolve_minimum_order_price method staff_info))%list →
                   f = fetch (listing_loader
                                (ShippingMethodNode.id (ChannelContext.node method),
                                 "default")))
      (shipping_methods_of sample_zone_store root staff_info).
Proof.
  intros root. split; [reflexivity|].
  apply (zone_channel_price_key sample_zone_store sample_store root staff_info "default").
  reflexivity.
Defined.
End zone_methods.
